(* Verification development for zget's [put] (src/zget/put.py):
   the token codec, the request handler [FileHandler.do_GET] and the
   lifecycle of [put] (registration, one [handle_request], teardown). *)

From Stdlib Require Import List String Ascii Arith Lia Bool ZArith.
Import ListNotations.
Open Scope string_scope.

(* ------------------------------------------------------------------ *)
(** * Token codec (module [utils], not part of put.py) *)

Module Token.
Section Codec.
(** Total length of a token and length of its broadcast fragment. *)
Variable token_len : nat.
Variable broadcast_len : nat.

(** Modelled from the spec: the token alphabet of [utils.generate]
  (alphanumeric, DNS-label safe). *)
Definition alphabet : string := "abcdefghijklmnopqrstuvwxyz0123456789".

(** Modelled from the spec: [utils.generate]; [draw i] is the random
  choice made for position [i], reduced into the alphabet. *)
Definition generate (draw : nat -> nat) : string :=
string_of_list_ascii
  (map (fun i => match String.get (draw i mod String.length alphabet) alphabet with
                 | Some c => c
                 | None => "a"%char
                 end)
       (seq 0 token_len)).

(** Modelled from the spec: [utils.split], broadcast fragment first. *)
Definition split (t : string) : string * string :=
(substring 0 broadcast_len t,
 substring broadcast_len (String.length t - broadcast_len) t).

(** Modelled from the spec: [utils.combine]; fragments of the wrong
  length fail with [InvalidTokenFormat] ([None]). *)
Definition combine (b s : string) : option string :=
if Nat.eqb (String.length b) broadcast_len
   && Nat.eqb (String.length s) (token_len - broadcast_len)
then Some (b ++ s) else None.

(** Modelled from the spec: [utils.prepare_token]: a fresh token when none
  is given, otherwise the given token, which must have the token length. *)
Definition prepare_token (draw : nat -> nat) (token : option string)
: option (string * string) :=
match token with
| None => Some (split (generate draw))
| Some t => if Nat.eqb (String.length t) token_len then Some (split t) else None
end.
End Codec.
End Token.

(* ------------------------------------------------------------------ *)
(** * Python values used by put.py *)

Module Py.
(** Exceptions that can leave the code of put.py. *)
Inductive exc :=
| RuntimeError          (* do_GET, invalid path *)
| IOError               (* open() of the shared file fails *)
| ValueError            (* port out of range *)
| InvalidTokenFormat    (* utils.prepare_token *)
| RegistrationError     (* zeroconf.register_service *)
| KeyboardInterrupt     (* operator interrupt *)
| TimeoutException.     (* utils.TimeoutException *)

Definition slash : ascii := "/"%char.

Fixpoint has_slash (s : string) : bool :=
  match s with
  | EmptyString => false
  | String c r => Ascii.eqb c slash || has_slash r
  end.

(** [os.path.basename]: the part after the last ['/']. *)
Fixpoint os_path_basename (s : string) : string :=
  match s with
  | EmptyString => EmptyString
  | String c r =>
      if has_slash r then os_path_basename r
      else if Ascii.eqb c slash then r else s
  end.

(** [os.path.join(os.curdir, p)]: an absolute [p] replaces the prefix. *)
Definition join_curdir (p : string) : string :=
  match p with
  | String c _ => if Ascii.eqb c slash then p else "./" ++ p
  | EmptyString => "./"
  end.

(** The double quote character. *)
Definition dquote : string := String (ascii_of_nat 34) EmptyString.
End Py.

(* ------------------------------------------------------------------ *)
(** * [StateHTTPServer] and [FileHandler.do_GET] *)

Module Handler.
Import Py.

Local Open Scope list_scope.

Definition byte := Byte.byte.

(** A file system: the bytes stored at a path, [None] if [open] fails. *)
Definition fs := string -> option (list byte).

(** The attributes of [StateHTTPServer] that [put] sets and [do_GET]
    reads; [reporthook] records whether a hook is configured. *)
Record server := mkServer {
  downloaded : bool;
  token : string;
  filename : string;
  basename : string;
  reporthook : bool
}.

(** put.py lines 235-240: the server object as [put] configures it. *)
Definition make_server (filename secret_token : string) (hook : bool) : server :=
  {| downloaded := false;
     token := secret_token;
     filename := filename;
     basename := os_path_basename filename;
     reporthook := hook |}.

Definition set_downloaded (s : server) : server :=
  {| downloaded := true; token := token s; filename := filename s;
     basename := basename s; reporthook := reporthook s |}.

Inductive hval := HStr (s : string) | HInt (n : nat).

(** Observable effects of the handler, in order: what goes to the wire
    and the calls of the progress hook. *)
Inductive event :=
| SendResponse (code : nat)
| SendHeader (key : string) (v : hval)
| EndHeaders
| Write (data : list byte)
| Hook (i chunk total : nat).

(** [fh.read(1024 * 8)] *)
Definition chunksize : nat := 1024 * 8.

(** The [while True] loop of do_GET (lines 70-78); [rest] is what is
    left to read of the file, [fuel] bounds the iterations (every
    iteration that does not stop reads at least one byte). *)
Fixpoint send_loop (fuel : nat) (hook : bool) (maxsize : nat)
         (rest : list byte) (i : nat) : list event :=
  match fuel with
  | O => []
  | S f =>
      match firstn chunksize rest with
      | [] => []
      | data =>
          Write data
            :: (if hook then [Hook i chunksize maxsize] else [])
            ++ send_loop f hook maxsize (skipn chunksize rest) (S i)
      end
  end.

Definition disposition (name : string) : string :=
  ("inline; filename=" ++ dquote ++ name ++ dquote)%string.

Definition accepted (srv : server) (path : string) : bool :=
  String.eqb path ("/" ++ token srv)%string
  || String.eqb path ("/" ++ basename srv)%string.

(** [FileHandler.do_GET]: the events produced, the server afterwards and
    the exception the handler raises, if any. *)
Definition do_GET (files : fs) (srv : server) (path : string)
  : list event * server * option exc :=
  if accepted srv path then
    match files (join_curdir (filename srv)) with
    | None => ([], srv, Some IOError)
    | Some contents =>
        let maxsize := List.length contents in
        ([SendResponse 200;
          SendHeader "Content-type" (HStr "application/octet-stream");
          SendHeader "Content-disposition"
            (HStr (disposition (os_path_basename (filename srv))));
          SendHeader "Content-length" (HInt maxsize);
          EndHeaders]
         ++ send_loop (List.length contents) (reporthook srv) maxsize contents 0,
         set_downloaded srv, None)
    end
  else ([SendResponse 404; EndHeaders], srv, Some RuntimeError).

(** The response body: the bytes of all [Write] events. *)
Fixpoint written (evs : list event) : list byte :=
  match evs with
  | [] => []
  | Write d :: r => d ++ written r
  | _ :: r => written r
  end.

(** The progress hook calls, in order. *)
Fixpoint hook_calls (evs : list event) : list (nat * nat * nat) :=
  match evs with
  | [] => []
  | Hook i c n :: r => (i, c, n) :: hook_calls r
  | _ :: r => hook_calls r
  end.

(** Events of a response body: writes and hook calls. *)
Definition body_event (ev : event) : Prop :=
  match ev with Write _ | Hook _ _ _ => True | _ => False end.

(** For each hook call, the number of body bytes written before it,
    starting from [acc]. *)
Fixpoint progress (evs : list event) (acc : nat) : list nat :=
  match evs with
  | [] => []
  | Write d :: r => progress r (acc + List.length d)
  | Hook _ _ _ :: r => acc :: progress r acc
  | _ :: r => progress r acc
  end.
End Handler.

(* ------------------------------------------------------------------ *)
(** * [put]: registration, one [handle_request], teardown *)

Module Put.
Import Py Handler.
Local Open Scope list_scope.

(** [ServiceInfo(type_, name, address, port, weight, priority, properties)];
    the address is kept as the dotted string [socket.inet_aton] packs. *)
Record service_info := mkInfo {
  type_ : string;
  name : string;
  address : string;
  port : Z;
  weight : nat;
  priority : nat;
  properties : list (string * option string)
}.

Definition service_type : string := "_zget._http._tcp.local.".

(** put.py lines 266-271. *)
Definition make_info (announce_token addr : string) (p : Z) : service_info :=
  {| type_ := service_type;
     name := (announce_token ++ "." ++ service_type)%string;
     address := addr;
     port := p;
     weight := 0;
     priority := 0;
     properties := [("path", None)] |}.

(** What happens while [server.handle_request()] waits: a GET request for
    a path, an operator interrupt, or the server timeout elapsing. *)
Inductive incoming :=
| Request (path : string)
| Interrupt
| Elapsed.

(** Observable actions of [put], in order. *)
Inductive action :=
| Announce (full_token : string)        (* the two print() calls *)
| Register (info : service_info)        (* zeroconf.register_service *)
| Serve (evs : list event)              (* the handler's effects *)
| SocketClose                           (* server.socket.close() *)
| Unregister (info : service_info)      (* zeroconf.unregister_service *)
| ZeroconfClose.                        (* zeroconf.close() *)

Inductive outcome :=
| Done                   (* put returns *)
| Raised (x : exc)       (* put raises x *)
| Blocked.               (* handle_request never returns *)

(** The world [put] runs in: configuration, the operating system, the
    libraries it calls, and the peers on the network. *)
Record env := mkEnv {
  config_port : Z;                     (* utils.config() 'port' *)
  config_interface : option string;    (* utils.config() 'interface' *)
  default_interface : string;          (* utils.default_interface() *)
  ip_addr : string -> string;          (* utils.ip_addr *)
  token_len : nat;                     (* token length of utils *)
  broadcast_len : nat;                 (* broadcast fragment length *)
  draw : nat -> nat;                   (* randomness of the token *)
  sha1_hex : string -> string;         (* hashlib.sha1(..).hexdigest() *)
  ephemeral_port : Z;                  (* port the OS picks for port 0 *)
  files : fs;                          (* the file system *)
  register_ok : string -> bool;        (* register_service succeeds *)
  incoming_events : list incoming      (* what reaches the server *)
}.

(** [socketserver.BaseServer.handle_request] with [FileHandler]: one
    request is handled; an exception of the handler is absorbed by
    [handle_error]; [KeyboardInterrupt] propagates; without a timeout
    the wait goes on past [Elapsed]; [None] means it never returns. *)
Fixpoint handle_request (timeout : option nat) (files : fs) (srv : server)
         (evs : list incoming) : option (list event * server * option exc) :=
  match evs with
  | [] => None
  | Elapsed :: r =>
      match timeout with
      | Some _ => Some ([], srv, None)
      | None => handle_request timeout files srv r
      end
  | Interrupt :: _ => Some ([], srv, Some KeyboardInterrupt)
  | Request p :: _ =>
      let '(out, srv', _) := do_GET files srv p in Some (out, srv', None)
  end.

(** The [for announce_token in ...] loop: registration stops at the
    first [register_service] that raises. *)
Fixpoint register_all (ok : string -> bool) (infos : list service_info)
  : list action * option exc :=
  match infos with
  | [] => ([], None)
  | i :: r =>
      if ok (name i) then
        let '(acts, x) := register_all ok r in (Register i :: acts, x)
      else ([], Some RegistrationError)
  end.

(** The result of [put]: its actions, the final [server.downloaded]
    (false when no server ran) and how it ended. *)
Record result := mkResult {
  trace : list action;
  downloaded_flag : bool;
  res : outcome
}.

Definition in_range (p : Z) : bool := (0 <=? p)%Z && (p <=? 65535)%Z.

(** [put(filename, token, interface, address, port, reporthook, timeout)]. *)
Definition put (e : env) (filename : string) (token : option string)
           (interface address : option string) (port_arg : option Z)
           (hook : bool) (timeout : option nat) : result :=
  let p := match port_arg with Some q => q | None => config_port e end in
  let iface := match interface with Some i => Some i | None => config_interface e end in
  if negb (in_range p) then mkResult [] false (Raised ValueError) else
  let basename := os_path_basename filename in
  let filehash := sha1_hex e basename in
  match Token.prepare_token (token_len e) (broadcast_len e) (draw e) token with
  | None => mkResult [] false (Raised InvalidTokenFormat)
  | Some (broadcast_token, secret_token) =>
    let iface' := match iface with Some i => i | None => default_interface e end in
    let addr := match address with Some a => a | None => ip_addr e iface' end in
    let srv := make_server filename secret_token hook in
    let server_port := if (p =? 0)%Z then ephemeral_port e else p in
    let pre := match token with
               | None => [Announce (broadcast_token ++ secret_token)%string]
               | Some _ => []
               end in
    let infos := map (fun a => make_info a addr server_port)
                     [broadcast_token; filehash] in
    let info := last infos (make_info filehash addr server_port) in
    match register_all (register_ok e) infos with
    | (regs, Some x) => mkResult (pre ++ regs) false (Raised x)
    | (regs, None) =>
      match handle_request timeout (files e) srv (incoming_events e) with
      | None => mkResult (pre ++ regs) false Blocked
      | Some (out, srv', x) =>
        match x with
        | Some KeyboardInterrupt | None =>
          let tr := pre ++ regs ++ [Serve out; SocketClose; Unregister info;
                                    ZeroconfClose] in
          match timeout with
          | Some _ =>
            if negb (downloaded srv')
            then mkResult tr (downloaded srv') (Raised TimeoutException)
            else mkResult tr (downloaded srv') Done
          | None => mkResult tr (downloaded srv') Done
          end
        | Some y => mkResult (pre ++ regs ++ [Serve out]) (downloaded srv') (Raised y)
        end
      end
    end
  end.

(** The instance names zeroconf announces after a sequence of actions:
    [register_service] adds a name, [unregister_service] withdraws it and
    [Zeroconf.close] withdraws every service still registered. *)
Fixpoint registry (acts : list action) (reg : list string) : list string :=
  match acts with
  | [] => reg
  | Register i :: r => registry r (name i :: reg)
  | Unregister i :: r => registry r (filter (fun n => negb (String.eqb n (name i))) reg)
  | ZeroconfClose :: r => registry r []
  | _ :: r => registry r reg
  end.

Definition registered (acts : list action) : list service_info :=
  flat_map (fun a => match a with Register i => [i] | _ => [] end) acts.

Definition served (acts : list action) : list event :=
  flat_map (fun a => match a with Serve evs => evs | _ => [] end) acts.

Definition torn_down (acts : list action) : Prop :=
  In SocketClose acts /\ In ZeroconfClose acts.
End Put.

(* ------------------------------------------------------------------ *)
(** * [cli]: checks of the command line, then [put] *)

Module Cli.
Import Py Handler Put.

(** The parsed arguments ([argparse] itself is not modelled); [verbose]
    and [quiet] are the counts of [-v] and [-q]. *)
Record cli_args := mkArgs {
  a_port : option Z;
  a_address : option string;
  a_interface : option string;
  a_verbose : nat;
  a_quiet : nat;
  a_timeout : option nat;
  a_input : string;
  a_token : option string
}.

(** Python truthiness of an optional string: [None] and [""] are false. *)
Definition truthy (o : option string) : bool :=
  match o with Some s => negb (String.eqb s "") | None => false end.

Inductive cli_outcome :=
| CliDone                          (* put returned *)
| CliBlocked                       (* put never returns *)
| CliReraise (x : exc)             (* verbose: [raise] *)
| CliExit (code : nat) (x : exc).  (* logger.error(e.message); sys.exit(1) *)

(** The [except Exception as e] block (lines 168-172). *)
Definition cli_except (verbose : nat) (x : exc) : cli_outcome :=
  if Nat.ltb 0 verbose then CliReraise x else CliExit 1 x.

(** [cli] after parsing (lines 147-172): [isfile] is [os.path.isfile];
    the result of [put], when [put] is called, and how [cli] ends. *)
Definition cli (e : env) (isfile : string -> bool) (a : cli_args)
  : option result * cli_outcome :=
  if negb (isfile (a_input a)) then (None, cli_except (a_verbose a) ValueError)
  else if truthy (a_interface a) && truthy (a_address a)
  then (None, cli_except (a_verbose a) ValueError)
  else
    let r := put e (a_input a) (a_token a) (a_interface a) (a_address a) (a_port a)
                 (Nat.eqb (a_quiet a) 0) (a_timeout a) in
    (Some r, match res r with
             | Done => CliDone
             | Blocked => CliBlocked
             | Raised x => cli_except (a_verbose a) x
             end).
End Cli.

(* ------------------------------------------------------------------ *)
(** * A concrete setting for running [put] *)

Module Examples.
Import Py Handler Put Cli.
Local Open Scope list_scope.

(** The shared file [a.txt] holds two bytes. *)
Definition ex_files : fs :=
  fun p => if String.eqb p "./a.txt" then Some [Byte.x41; Byte.x42] else None.

(** Port 0 configured, tokens of 8 characters split 4 + 4, the OS
    assigns port 50123, the peers send [evs]; registration succeeds for
    the names [ok] accepts. *)
Definition ex_env (ok : string -> bool) (evs : list incoming) : env :=
  {| config_port := 0%Z;
     config_interface := None;
     default_interface := "eth0";
     ip_addr := fun _ => "192.168.0.2";
     token_len := 8;
     broadcast_len := 4;
     draw := fun i => i;
     sha1_hex := fun _ => "9b1a4c2d";
     ephemeral_port := 50123%Z;
     files := ex_files;
     register_ok := ok;
     incoming_events := evs |}.

(** [put("a.txt")] with the given timeout; the generated token is
    ["abcdefgh"], so the secret path is ["/efgh"]. *)
Definition ex_put (ok : string -> bool) (evs : list incoming) (timeout : option nat)
  : result :=
  put (ex_env ok evs) "a.txt" None None None None true timeout.
(** Arguments of [zput -q a.txt] with the given timeout. *)
Definition ex_args (quiet : nat) (timeout : option nat) : cli_args :=
  {| a_port := None; a_address := None; a_interface := None; a_verbose := 0;
     a_quiet := quiet; a_timeout := timeout; a_input := "a.txt"; a_token := None |}.

End Examples.

(* ================================================================== *)
(** * Lemmas *)

Module TokenFacts.
Import Token.

Lemma length_string_of_list_ascii (l : list ascii) :
  String.length (string_of_list_ascii l) = List.length l.
Proof. induction l as [|c l IH]; simpl; congruence. Qed.

Lemma generate_length (n : nat) (draw : nat -> nat) :
  String.length (generate n draw) = n.
Proof.
  unfold generate. rewrite length_string_of_list_ascii, length_map.
  apply length_seq.
Qed.

Lemma substring_length (s : string) : forall n m,
  n + m <= String.length s -> String.length (substring n m s) = m.
Proof.
  induction s as [|c s IH]; intros n m H; simpl in H.
  - assert (n = 0) by lia; assert (m = 0) by lia; subst; reflexivity.
  - destruct n as [|n], m as [|m]; simpl; try reflexivity.
    + f_equal. apply IH. lia.
    + apply (IH n 0). lia.
    + apply IH. lia.
Qed.

Lemma substring_0_all (s : string) : substring 0 (String.length s) s = s.
Proof. induction s as [|c s IH]; simpl; [reflexivity | congruence]. Qed.

Lemma substring_prefix_suffix (s : string) : forall k,
  k <= String.length s ->
  (substring 0 k s ++ substring k (String.length s - k) s)%string = s.
Proof.
  induction s as [|c s IH]; intros k H; simpl in H.
  - assert (k = 0) by lia; subst; reflexivity.
  - destruct k as [|k].
    + simpl. f_equal. apply substring_0_all.
    + simpl. f_equal. apply IH. lia.
Qed.
End TokenFacts.

Module HandlerFacts.
Import Py Handler.
Local Open Scope list_scope.

Lemma written_app (a b : list event) : written (a ++ b) = written a ++ written b.
Proof.
  induction a as [|[] a IH]; simpl; rewrite ?IH; try reflexivity.
  apply app_assoc.
Qed.

Lemma hook_calls_app (a b : list event) :
  hook_calls (a ++ b) = hook_calls a ++ hook_calls b.
Proof. induction a as [|[] a IH]; simpl; rewrite ?IH; reflexivity. Qed.

Lemma firstn_chunk_nil (rest : list byte) :
  firstn chunksize rest = [] -> rest = [].
Proof. destruct rest; [reflexivity | discriminate]. Qed.

Lemma length_skipn_chunk (rest : list byte) (b : byte) (l : list byte) :
  firstn chunksize rest = b :: l ->
  List.length (skipn chunksize rest) = List.length rest - chunksize
  /\ 1 <= List.length rest.
Proof.
  intros E. rewrite length_skipn. split; [reflexivity|].
  destruct rest; [discriminate | simpl; lia].
Qed.

(** The loop sends the whole file. *)
Lemma send_loop_written (fuel : nat) (hook : bool) (n : nat) :
  forall rest i, List.length rest <= fuel ->
  written (send_loop fuel hook n rest i) = rest.
Proof.
  induction fuel as [|fuel IH]; intros rest i H.
  - destruct rest; [reflexivity | simpl in H; lia].
  - cbn [send_loop].
    destruct (firstn chunksize rest) as [|b l] eqn:E.
    + symmetry. apply firstn_chunk_nil. exact E.
    + destruct (length_skipn_chunk rest b l E) as [Hl H1].
      cbn [written]. rewrite written_app, IH by (unfold chunksize in *; lia).
      destruct hook; cbn [written app];
        change (b :: l ++ skipn chunksize rest) with ((b :: l) ++ skipn chunksize rest);
        rewrite <- E; apply firstn_skipn.
Qed.

(** The loop writes and calls the hook only. *)
Lemma send_loop_body (fuel : nat) (hook : bool) (n : nat) :
  forall rest i, Forall body_event (send_loop fuel hook n rest i).
Proof.
  induction fuel as [|fuel IH]; intros rest i; cbn [send_loop]; [constructor|].
  destruct (firstn chunksize rest); [constructor|].
  constructor; [exact I|]. apply Forall_app; split; [|apply IH].
  destruct hook; repeat constructor.
Qed.
End HandlerFacts.

Module HandlerFacts2.
Import Py Handler HandlerFacts.
Local Open Scope list_scope.

Lemma send_loop_nil (fuel : nat) (hook : bool) (n i : nat) :
  send_loop fuel hook n [] i = [].
Proof. destruct fuel; reflexivity. Qed.

(** One hook call per chunk, numbered from [i]; the number of chunks
    covers the data by less than one chunk. *)
Lemma send_loop_hooks (fuel n : nat) :
  forall rest i, List.length rest <= fuel ->
  exists k,
    hook_calls (send_loop fuel true n rest i)
      = map (fun j => (j, chunksize, n)) (seq i k)
    /\ List.length rest <= k * chunksize
    /\ k * chunksize < List.length rest + chunksize.
Proof.
  induction fuel as [|fuel IH]; intros rest i H.
  - exists 0. destruct rest; [|simpl in H; lia].
    unfold chunksize; simpl; repeat split; lia.
  - cbn [send_loop].
    destruct (firstn chunksize rest) as [|b l] eqn:E.
    + apply firstn_chunk_nil in E; subst rest.
      exists 0. unfold chunksize; simpl; repeat split; lia.
    + destruct (length_skipn_chunk rest b l E) as [Hl H1].
      destruct (IH (skipn chunksize rest) (S i)) as (k & Hk & Hlo & Hhi).
      { rewrite Hl. unfold chunksize in *; lia. }
      exists (S k). cbn [hook_calls app]. rewrite Hk. split; [reflexivity|].
      rewrite Hl in Hlo, Hhi. unfold chunksize in *.
      destruct (Nat.le_gt_cases (1024 * 8) (List.length rest)); nia.
Qed.

Lemma progress_app (a b : list event) (acc : nat) :
  progress (a ++ b) acc = progress a acc ++ progress b (acc + List.length (written a)).
Proof.
  revert acc; induction a as [|[] a IH]; intros acc; cbn [progress written app].
  - rewrite Nat.add_0_r. reflexivity.
  - apply IH.
  - apply IH.
  - apply IH.
  - rewrite IH, length_app. f_equal. f_equal. lia.
  - rewrite IH. reflexivity.
Qed.

(** When the last hook call happens, the whole data has been written. *)
Lemma send_loop_progress_last (fuel n : nat) :
  forall rest i acc, List.length rest <= fuel -> rest <> [] ->
  last (progress (send_loop fuel true n rest i) acc) 0 = acc + List.length rest.
Proof.
  induction fuel as [|fuel IH]; intros rest i acc H Hne.
  - destruct rest; [congruence | simpl in H; lia].
  - cbn [send_loop].
    destruct (firstn chunksize rest) as [|b l] eqn:E.
    + apply firstn_chunk_nil in E; congruence.
    + destruct (length_skipn_chunk rest b l E) as [Hl H1].
      pose proof (firstn_skipn chunksize rest) as Hsplit. rewrite E in Hsplit.
      cbn [progress app].
      destruct (skipn chunksize rest) as [|c r] eqn:Es.
      * rewrite send_loop_nil. simpl.
        rewrite <- Hsplit, app_nil_r. reflexivity.
      * assert (IHc := IH (c :: r) (S i) (acc + List.length (b :: l))).
        assert (Hlen : List.length (c :: r) <= fuel)
          by (cbn [List.length] in Hl |- *; unfold chunksize in *; lia).
        specialize (IHc Hlen ltac:(discriminate)).
        rewrite <- Hsplit, length_app.
        destruct (progress (send_loop fuel true n (c :: r) (S i))
                    (acc + List.length (b :: l))) eqn:Ep.
        -- simpl in IHc. lia.
        -- transitivity (last (n0 :: l0) 0); [reflexivity|]. rewrite IHc. lia.
Qed.
End HandlerFacts2.

Module PutFacts.
Import Py Handler Put.
Local Open Scope list_scope.

(** Only an interrupt leaves [handle_request]. *)
Lemma handle_request_exc (t : option nat) (f : fs) (srv : server) (evs : list incoming)
      out srv' x :
  handle_request t f srv evs = Some (out, srv', x) ->
  x = None \/ x = Some KeyboardInterrupt.
Proof.
  induction evs as [|[p| |] evs IH]; cbn [handle_request]; try discriminate.
  - destruct (do_GET f srv p) as [[o s] y]. intros H; injection H; auto.
  - intros H; injection H; auto.
  - destruct t; [intros H; injection H; auto | exact IH].
Qed.

Definition is_register (a : action) : Prop :=
  match a with Register _ => True | _ => False end.

Lemma register_all_registers (ok : string -> bool) (infos : list service_info) regs x :
  register_all ok infos = (regs, x) -> Forall is_register regs.
Proof.
  revert regs x; induction infos as [|i infos IH]; intros regs x; cbn [register_all].
  - intros H; injection H as <- _; constructor.
  - destruct (ok (name i)); [|intros H; injection H as <- _; constructor].
    destruct (register_all ok infos) as [acts y] eqn:E.
    intros H; injection H as <- _. constructor; [exact I | eapply IH; eauto].
Qed.

Lemma register_all_ok (ok : string -> bool) (infos : list service_info) :
  (forall i, In i infos -> ok (name i) = true) ->
  register_all ok infos = (map Register infos, None).
Proof.
  induction infos as [|i infos IH]; intros H; cbn [register_all map]; [reflexivity|].
  rewrite H by (left; reflexivity). rewrite IH by (intros j Hj; apply H; right; exact Hj).
  reflexivity.
Qed.

Lemma registered_register_all (ok : string -> bool) (infos : list service_info) regs x :
  register_all ok infos = (regs, x) -> exists k, registered regs = firstn k infos.
Proof.
  revert regs x; induction infos as [|i infos IH]; intros regs x; cbn [register_all].
  - intros H; injection H as <- _. exists 0. reflexivity.
  - destruct (ok (name i)); [|intros H; injection H as <- _; exists 0; reflexivity].
    destruct (register_all ok infos) as [acts y] eqn:E.
    intros H; injection H as <- _.
    destruct (IH acts y eq_refl) as [k Hk]. exists (S k).
    cbn. rewrite <- Hk. reflexivity.
Qed.

Lemma registered_app (a b : list action) :
  registered (a ++ b) = registered a ++ registered b.
Proof. apply flat_map_app. Qed.

Lemma not_in_registers (a : action) (regs : list action) :
  Forall is_register regs -> ~ is_register a -> ~ In a regs.
Proof.
  intros H Ha Hin. rewrite Forall_forall in H. exact (Ha (H a Hin)).
Qed.

(** The announcement printed before registering. *)
Lemma pre_no_close (token : option string) (s : string) :
  ~ In SocketClose (match token with None => [Announce s] | Some _ => [] end)
  /\ ~ In ZeroconfClose (match token with None => [Announce s] | Some _ => [] end).
Proof. destruct token; cbn; split; intuition discriminate. Qed.

Lemma register_all_exc (ok : string -> bool) (infos : list service_info) regs x :
  register_all ok infos = (regs, Some x) -> x = RegistrationError.
Proof.
  revert regs; induction infos as [|i infos IH]; intros regs; cbn [register_all];
    [discriminate|].
  destruct (ok (name i)); [|intros H; injection H; auto].
  destruct (register_all ok infos) as [acts y] eqn:E.
  intros H; injection H as _ ->. eapply IH; eauto.
Qed.

Definition announce_pre (pre : list action) : Prop :=
  pre = [] \/ exists s, pre = [Announce s].

(** The three ways [put] ends: rejected before any network action, stopped
    during registration or blocked in the wait (no teardown), or torn
    down after the wait. *)
Lemma put_shape (e : env) (filename : string) (token iface addr : option string)
      (port_arg : option Z) (hook : bool) (timeout : option nat) :
  let r := put e filename token iface addr port_arg hook timeout in
  (trace r = [] /\ (res r = Raised ValueError \/ res r = Raised InvalidTokenFormat))
  \/ (exists pre regs, announce_pre pre /\ Forall is_register regs
      /\ trace r = pre ++ regs
      /\ (res r = Raised RegistrationError \/ res r = Blocked))
  \/ (exists pre regs out info, announce_pre pre /\ Forall is_register regs
      /\ trace r = pre ++ regs ++ [Serve out; SocketClose; Unregister info; ZeroconfClose]
      /\ res r = match timeout with
                 | Some _ => if downloaded_flag r then Done else Raised TimeoutException
                 | None => Done
                 end).
Proof.
  intros r; subst r. unfold put.
  assert (Hpre : forall (t : option string) str,
            announce_pre (match t with None => [Announce str] | Some _ => [] end))
    by (intros [] str; [left; reflexivity | right; eexists; reflexivity]).
  destruct (in_range _); cbn [negb]; [|left; split; [reflexivity | left; reflexivity]].
  destruct (Token.prepare_token _ _ _ _) as [[b sec]|];
    [|left; split; [reflexivity | right; reflexivity]].
  match goal with |- context [register_all ?ok ?infos] =>
    destruct (register_all ok infos) as [regs [x|]] eqn:Er end;
  pose proof (register_all_registers _ _ _ _ Er) as Hregs.
  - apply register_all_exc in Er; subst x.
    right; left. eexists _, regs. repeat split; auto.
  - match goal with |- context [handle_request ?t ?f ?s ?evs] =>
      destruct (handle_request t f s evs) as [[[out srv'] x]|] eqn:Eh end.
    + destruct (handle_request_exc _ _ _ _ _ _ _ Eh) as [-> | ->];
        right; right; eexists _, regs, out, _; repeat split; auto;
        destruct timeout; try reflexivity; destruct (downloaded srv'); reflexivity.
    + right; left. eexists _, regs. repeat split; auto.
Qed.

Lemma no_close_before_wait (pre regs : list action) :
  announce_pre pre -> Forall is_register regs ->
  ~ In SocketClose (pre ++ regs) /\ ~ In ZeroconfClose (pre ++ regs).
Proof.
  intros [-> | [str ->]] Hr; split; intros Hin; apply in_app_or in Hin;
    (destruct Hin as [Hin|Hin];
     [ cbn in Hin; intuition discriminate
     | eapply not_in_registers; [exact Hr | | exact Hin]; cbn; auto ]).
Qed.

Lemma Forall_firstn_ {A} (P : A -> Prop) (k : nat) (l : list A) :
  Forall P l -> Forall P (firstn k l).
Proof.
  intros H. rewrite <- (firstn_skipn k l) in H.
  apply Forall_app in H. exact (proj1 H).
Qed.

Lemma registered_pre (token : option string) (str : string) :
  registered (match token with None => [Announce str] | Some _ => [] end) = [].
Proof. destruct token; reflexivity. Qed.

(** What [put] registers is a prefix of the two records it builds. *)
Lemma registered_put (e : env) (filename : string) (token iface addr : option string)
      (port_arg : option Z) (hook : bool) (timeout : option nat) :
  let r := put e filename token iface addr port_arg hook timeout in
  registered (trace r) = []
  \/ exists b sec a p k,
    Token.prepare_token (token_len e) (broadcast_len e) (draw e) token = Some (b, sec)
    /\ p = (let q := match port_arg with Some q => q | None => config_port e end in
            if (q =? 0)%Z then ephemeral_port e else q)
    /\ registered (trace r)
       = firstn k [make_info b a p; make_info (sha1_hex e (os_path_basename filename)) a p].
Proof.
  intros r; subst r. unfold put.
  destruct (in_range _); cbn [negb]; [|left; reflexivity].
  destruct (Token.prepare_token _ _ _ _) as [[b sec]|] eqn:Et; [|left; reflexivity].
  right.
  match goal with |- context [register_all ?ok ?infos] =>
    destruct (register_all ok infos) as [regs x] eqn:Er end.
  destruct (registered_register_all _ _ _ _ Er) as [k Hk].
  exists b, sec. eexists. eexists. exists k. split; [reflexivity|]. split; [reflexivity|].
  transitivity (registered regs); [|rewrite Hk; reflexivity].
  clear Hk Er.
  destruct x as [x|].
  - cbn [trace]. rewrite registered_app, registered_pre. reflexivity.
  - destruct (handle_request _ _ _ _) as [[[out srv'] [[]|]]|];
      try destruct timeout; try destruct (downloaded _);
      cbn [trace negb]; rewrite !registered_app, registered_pre, ?app_nil_r;
      reflexivity.
Qed.

Lemma register_all_none (ok : string -> bool) (infos : list service_info) regs :
  register_all ok infos = (regs, None) -> regs = map Register infos.
Proof.
  revert regs; induction infos as [|i infos IH]; intros regs; cbn [register_all map].
  - intros H; injection H as <-; reflexivity.
  - destruct (ok (name i)); [|discriminate].
    destruct (register_all ok infos) as [acts y] eqn:E.
    intros H; injection H as <- ->. rewrite (IH acts eq_refl). reflexivity.
Qed.

Lemma registry_app (a b : list action) (reg : list string) :
  registry (a ++ b) reg = registry b (registry a reg).
Proof.
  revert reg; induction a as [|[] a IH]; intros reg; cbn [registry app]; auto.
Qed.

Lemma served_app (a b : list action) : served (a ++ b) = served a ++ served b.
Proof. apply flat_map_app. Qed.

Lemma served_pre (token : option string) (str : string) :
  served (match token with None => [Announce str] | Some _ => [] end) = [].
Proof. destruct token; reflexivity. Qed.

Lemma torn_down_tail (pre : list action) (out : list event) (info : service_info) :
  torn_down (pre ++ [Serve out; SocketClose; Unregister info; ZeroconfClose]).
Proof.
  split; apply in_or_app; right; cbn; auto 6.
Qed.

Lemma announce_pre_match (token : option string) (str : string) :
  announce_pre (match token with None => [Announce str] | Some _ => [] end).
Proof. destruct token; [left | right; eexists]; reflexivity. Qed.

Lemma map_register_registers (infos : list service_info) :
  Forall is_register (map Register infos).
Proof. induction infos; constructor; [exact I | assumption]. Qed.

Lemma do_GET_reject (f : fs) (filename sec path : string) (hook : bool) :
  path <> ("/" ++ sec)%string ->
  path <> ("/" ++ os_path_basename filename)%string ->
  do_GET f (make_server filename sec hook) path
    = ([SendResponse 404; EndHeaders], make_server filename sec hook, Some RuntimeError).
Proof.
  intros H1 H2. unfold do_GET, accepted. cbn [make_server Handler.token Handler.basename].
  rewrite (proj2 (String.eqb_neq _ _) H1), (proj2 (String.eqb_neq _ _) H2).
  reflexivity.
Qed.
End PutFacts.

(* ================================================================== *)
(** * Claims *)

Import Py Handler.

(** C3: for every generated token [t], combining the two fragments that
    [split] returns gives [t] back (the fragment lengths being fixed with
    the broadcast fragment not longer than the token). *)
Theorem combine_split_generate (token_len broadcast_len : nat) (draw : nat -> nat) :
  broadcast_len <= token_len ->
  let t := Token.generate token_len draw in
  Token.combine token_len broadcast_len
    (fst (Token.split broadcast_len t)) (snd (Token.split broadcast_len t)) = Some t.
Proof.
  intros Hle t. unfold Token.combine, Token.split; cbn [fst snd].
  assert (Hlen : String.length t = token_len) by apply TokenFacts.generate_length.
  rewrite (TokenFacts.substring_length t 0 broadcast_len) by lia.
  rewrite (TokenFacts.substring_length t broadcast_len) by lia.
  rewrite Hlen, !Nat.eqb_refl. cbn [andb].
  rewrite <- Hlen. f_equal. apply TokenFacts.substring_prefix_suffix. lia.
Qed.

(** C1: a GET for ['/' + secret token] or ['/' + base name] is answered
    200 with the octet-stream type, the inline disposition naming the base
    name, the file's size as length and the file's bytes as body; any
    other path is answered 404 with no body. *)
Theorem do_GET_response (files : fs) (filename secret path : string) (hook : bool)
        (contents : list byte) :
  files (join_curdir filename) = Some contents ->
  let '(evs, _, _) := do_GET files (make_server filename secret hook) path in
  ((path = ("/" ++ secret)%string \/ path = ("/" ++ os_path_basename filename)%string) ->
   exists body,
     evs = ([SendResponse 200;
             SendHeader "Content-type" (HStr "application/octet-stream");
             SendHeader "Content-disposition"
               (HStr (disposition (os_path_basename filename)));
             SendHeader "Content-length" (HInt (List.length contents));
             EndHeaders] ++ body)%list
     /\ Forall body_event body
     /\ written body = contents)
  /\ (path <> ("/" ++ secret)%string /\ path <> ("/" ++ os_path_basename filename)%string ->
      evs = [SendResponse 404; EndHeaders] /\ written evs = []).
Proof.
  intros Hf. unfold do_GET, accepted; cbn [Handler.token Handler.basename Handler.filename make_server].
  destruct (String.eqb_spec path ("/" ++ secret)%string) as [E1|E1];
  destruct (String.eqb_spec path ("/" ++ os_path_basename filename)%string) as [E2|E2];
  cbn [orb].
  1-3: rewrite Hf; split;
       [ intros _; eexists; split; [reflexivity|];
         split; [apply HandlerFacts.send_loop_body
                | apply HandlerFacts.send_loop_written; lia]
       | intros [? ?]; congruence ].
  split; [intros [Hp|Hp]; congruence | intros _; split; reflexivity].
Qed.

(** C9: with a progress hook, serving a file of [N] bytes calls the hook
    once per chunk with [(i, 8192, N)] for [i = 0, 1, ...]; the number of
    calls times 8192 is at least [N] and below [N + 8192]; at the last call
    the [N] bytes have been written. *)
Theorem do_GET_progress (files : fs) (filename secret path : string)
        (contents : list byte) :
  files (join_curdir filename) = Some contents ->
  accepted (make_server filename secret true) path = true ->
  let '(evs, _, _) := do_GET files (make_server filename secret true) path in
  exists k,
    hook_calls evs = map (fun i => (i, chunksize, List.length contents)) (seq 0 k)
    /\ List.length contents <= k * chunksize
    /\ k * chunksize < List.length contents + chunksize
    /\ (contents <> [] -> last (progress evs 0) 0 = List.length contents).
Proof.
  intros Hf Ha. unfold do_GET. rewrite Ha. cbn [Handler.filename make_server Handler.reporthook].
  rewrite Hf.
  destruct (HandlerFacts2.send_loop_hooks (List.length contents) (List.length contents)
              contents 0 (le_n _)) as (k & Hk & Hlo & Hhi).
  exists k. rewrite HandlerFacts.hook_calls_app. cbn [hook_calls app].
  repeat split; try assumption.
  intros Hne. cbn [progress].
  apply HandlerFacts2.send_loop_progress_last; [lia | exact Hne].
Qed.

Import Put.

(** C4: whenever [put] reaches its teardown, it raises the timeout error
    exactly when a timeout was configured and the file was not downloaded,
    and otherwise returns normally. *)
Theorem put_timeout_after_teardown (e : env) (filename : string)
        (token iface addr : option string) (port_arg : option Z) (hook : bool)
        (timeout : option nat) :
  let r := put e filename token iface addr port_arg hook timeout in
  In SocketClose (trace r) ->
  (res r = Raised TimeoutException <-> (timeout <> None /\ downloaded_flag r = false))
  /\ (res r <> Raised TimeoutException -> res r = Done).
Proof.
  intros r Hin.
  destruct (PutFacts.put_shape e filename token iface addr port_arg hook timeout)
    as [[Ht _] | [(pre & regs & Hp & Hr & Ht & _) | (pre & regs & out & info & Hp & Hr & Ht & Hres)]];
    fold r in Ht |- *.
  - rewrite Ht in Hin. destruct Hin.
  - rewrite Ht in Hin. exfalso. apply (proj1 (PutFacts.no_close_before_wait pre regs Hp Hr) Hin).
  - fold r in Hres. rewrite Hres.
    destruct timeout; [destruct (downloaded_flag r)|];
      split; try split; intuition congruence.
Qed.

(** C6 (amended): teardown (socket closed, zeroconf closed) happens exactly
    on the runs that end normally or with the timeout error; a run that
    raises another error (port out of range, bad token, failed service
    registration) or never leaves the wait has no teardown. *)
Theorem put_teardown_iff (e : env) (filename : string)
        (token iface addr : option string) (port_arg : option Z) (hook : bool)
        (timeout : option nat) :
  let r := put e filename token iface addr port_arg hook timeout in
  torn_down (trace r) <-> (res r = Done \/ res r = Raised TimeoutException).
Proof.
  intros r. unfold torn_down.
  destruct (PutFacts.put_shape e filename token iface addr port_arg hook timeout)
    as [[Ht Hres] | [(pre & regs & Hp & Hr & Ht & Hres) | (pre & regs & out & info & Hp & Hr & Ht & Hres)]];
    fold r in Ht, Hres |- *; rewrite Ht.
  - split; [intros [[] _] | intros H; exfalso; destruct Hres, H; congruence].
  - destruct (PutFacts.no_close_before_wait pre regs Hp Hr) as [H1 H2].
    split; [intros [H _]; contradiction | intros H; exfalso; destruct Hres, H; congruence].
  - split.
    + intros _. rewrite Hres. destruct timeout; [destruct (downloaded_flag r)|]; auto.
    + intros _. split; apply in_or_app; right; apply in_or_app; right; cbn; auto 6.
Qed.

(** C6: a registration failure ends [put] with that error and without
    teardown. *)
Lemma put_registration_failure_no_teardown :
  let r := Examples.ex_put (fun _ => false) [Interrupt] None in
  res r = Raised RegistrationError /\ ~ torn_down (trace r).
Proof.
  vm_compute. split; [reflexivity | intros [H _]; intuition discriminate].
Qed.

(** C10: when the port is 0, given or configured, every registered record
    carries the port the operating system assigned to the server socket. *)
Theorem put_ephemeral_port (e : env) (filename : string)
        (token iface addr : option string) (port_arg : option Z) (hook : bool)
        (timeout : option nat) :
  (port_arg = Some 0%Z \/ (port_arg = None /\ config_port e = 0%Z)) ->
  ephemeral_port e <> 0%Z ->
  let r := put e filename token iface addr port_arg hook timeout in
  Forall (fun i => port i = ephemeral_port e /\ port i <> 0%Z) (registered (trace r)).
Proof.
  intros Hport Heph r.
  destruct (PutFacts.registered_put e filename token iface addr port_arg hook timeout)
    as [H | (b & sec & a & p & k & _ & Hp & H)]; fold r in H; rewrite H; [constructor|].
  assert (Hq : match port_arg with Some q => q | None => config_port e end = 0%Z)
    by (destruct Hport as [-> | [-> ->]]; reflexivity).
  cbv zeta in Hp. rewrite Hq in Hp. cbn in Hp. subst p.
  apply PutFacts.Forall_firstn_. repeat constructor; cbn; assumption.
Qed.

(** Unfold [put] up to [handle_request] for a run whose port is in range,
    whose token is accepted and whose registrations succeed. *)
Ltac open_put Hrange Htok Hreg :=
  unfold put; cbv zeta; rewrite Hrange; cbn [negb]; rewrite Htok;
  rewrite PutFacts.register_all_ok by (intros; apply Hreg).

(** C8 (amended): [put] registers one record per alias, the broadcast
    fragment's first and the file hash's second, under
    [_zget._http._tcp.local.], both with the same address and port, weight
    and priority 0 and the properties [{'path': None}]. *)
Theorem put_registrations (e : env) (filename : string)
        (token iface addr : option string) (port_arg : option Z) (hook : bool)
        (timeout : option nat) (b sec : string) :
  in_range (match port_arg with Some q => q | None => config_port e end) = true ->
  Token.prepare_token (token_len e) (broadcast_len e) (draw e) token = Some (b, sec) ->
  (forall n, register_ok e n = true) ->
  let r := put e filename token iface addr port_arg hook timeout in
  exists a p,
    registered (trace r)
      = [make_info b a p; make_info (sha1_hex e (os_path_basename filename)) a p]
    /\ Forall (fun i => type_ i = service_type /\ weight i = 0 /\ priority i = 0
                       /\ properties i = [("path", None)]) (registered (trace r)).
Proof.
  intros Hrange Htok Hreg r; subst r. open_put Hrange Htok Hreg.
  destruct (handle_request _ _ _ _) as [[[out srv'] [[]|]]|];
    try destruct timeout; try destruct (downloaded _);
    cbn [trace negb]; rewrite ?PutFacts.registered_app, PutFacts.registered_pre;
    (eexists; eexists; split; [reflexivity | repeat constructor]).
Qed.

(** C5 (amended): an operator interrupt during the wait is swallowed and
    teardown runs; [put] then returns normally when no timeout was
    configured, and raises the timeout error when one was. *)
Theorem put_interrupt (e : env) (filename : string)
        (token iface addr : option string) (port_arg : option Z) (hook : bool)
        (timeout : option nat) (b sec : string) (rest : list incoming) :
  in_range (match port_arg with Some q => q | None => config_port e end) = true ->
  Token.prepare_token (token_len e) (broadcast_len e) (draw e) token = Some (b, sec) ->
  (forall n, register_ok e n = true) ->
  incoming_events e = Interrupt :: rest ->
  let r := put e filename token iface addr port_arg hook timeout in
  torn_down (trace r) /\ downloaded_flag r = false
  /\ res r = match timeout with Some _ => Raised TimeoutException | None => Done end.
Proof.
  intros Hrange Htok Hreg Hin r; subst r. open_put Hrange Htok Hreg.
  rewrite Hin. cbn [handle_request make_server downloaded negb].
  destruct timeout; cbn [trace downloaded_flag res];
    rewrite !app_assoc; (split; [apply PutFacts.torn_down_tail | split; reflexivity]).
Qed.

(** C2 (amended): a GET for a path that is neither accepted value is
    answered 404 and ends the wait: no further request is served, teardown
    runs, the file counts as not downloaded, and [put] returns normally
    without a timeout or raises the timeout error with one. *)
Theorem put_invalid_request (e : env) (filename : string)
        (token iface addr : option string) (port_arg : option Z) (hook : bool)
        (timeout : option nat) (b sec path : string) (rest : list incoming) :
  in_range (match port_arg with Some q => q | None => config_port e end) = true ->
  Token.prepare_token (token_len e) (broadcast_len e) (draw e) token = Some (b, sec) ->
  (forall n, register_ok e n = true) ->
  incoming_events e = Request path :: rest ->
  path <> ("/" ++ sec)%string ->
  path <> ("/" ++ os_path_basename filename)%string ->
  let r := put e filename token iface addr port_arg hook timeout in
  served (trace r) = [SendResponse 404; EndHeaders]
  /\ torn_down (trace r) /\ downloaded_flag r = false
  /\ res r = match timeout with Some _ => Raised TimeoutException | None => Done end.
Proof.
  intros Hrange Htok Hreg Hin H1 H2 r; subst r. open_put Hrange Htok Hreg.
  rewrite Hin. cbn [handle_request].
  rewrite PutFacts.do_GET_reject by assumption.
  cbn [make_server downloaded negb].
  destruct timeout; cbn [trace downloaded_flag res];
    (split; [rewrite !PutFacts.served_app, PutFacts.served_pre; reflexivity|]);
    rewrite !app_assoc; (split; [apply PutFacts.torn_down_tail | split; reflexivity]).
Qed.

(** C7: when [put] tears down, both records it registered (the broadcast
    fragment's and the file hash's) are withdrawn: none is left announced
    once [zeroconf.close()] has run after [unregister_service]. *)
Theorem put_withdraws_all (e : env) (filename : string)
        (token iface addr : option string) (port_arg : option Z) (hook : bool)
        (timeout : option nat) :
  let r := put e filename token iface addr port_arg hook timeout in
  torn_down (trace r) ->
  List.length (registered (trace r)) = 2 /\ registry (trace r) [] = [].
Proof.
  intros r; subst r. unfold put; cbv zeta.
  destruct (in_range _); cbn [negb]; [|intros [[] _]].
  destruct (Token.prepare_token _ _ _ _) as [[b sec]|]; [|intros [[] _]].
  match goal with |- context [register_all ?ok ?infos] =>
    destruct (register_all ok infos) as [regs [x|]] eqn:Er end.
  - cbn [trace]. intros Ht. exfalso.
    apply (proj1 (PutFacts.no_close_before_wait _ regs
                    (PutFacts.announce_pre_match token (b ++ sec)%string)
                    (PutFacts.register_all_registers _ _ _ _ Er))).
    exact (proj1 Ht).
  - pose proof (PutFacts.register_all_registers _ _ _ _ Er) as Hregs.
    apply PutFacts.register_all_none in Er. subst regs.
    match goal with |- context [handle_request ?t ?f ?s ?evs] =>
      destruct (handle_request t f s evs) as [[[out srv'] x]|] eqn:Eh end.
    + destruct (PutFacts.handle_request_exc _ _ _ _ _ _ _ Eh) as [-> | ->];
        destruct timeout; try destruct (downloaded srv');
        cbn [trace negb]; intros _;
        (split; [rewrite !PutFacts.registered_app, PutFacts.registered_pre; reflexivity
                | rewrite !PutFacts.registry_app; reflexivity]).
    + cbn [trace]. intros Ht. exfalso.
      apply (proj1 (PutFacts.no_close_before_wait _ _
                      (PutFacts.announce_pre_match token (b ++ sec)%string) Hregs)).
      exact (proj1 Ht).
Qed.

(* ------------------------------------------------------------------ *)
(** * Counterexamples *)

(** C2: after a request for ["/bad"], the valid request for the secret
    path ["/efgh"] that follows is never served: the run ends with the 404
    as the only response and the file not downloaded. *)
Lemma put_invalid_then_valid_not_served :
  let r := Examples.ex_put (fun _ => true) [Request "/bad"; Request "/efgh"] None in
  served (trace r) = [SendResponse 404; EndHeaders]
  /\ downloaded_flag r = false /\ res r = Done.
Proof. vm_compute. repeat split. Qed.

(** C5: with a timeout configured, an interrupt during the wait makes
    [put] raise the timeout error. *)
Lemma put_interrupt_with_timeout_raises :
  res (Examples.ex_put (fun _ => true) [Interrupt] (Some 5)) = Raised TimeoutException.
Proof. vm_compute. reflexivity. Qed.

(** C8: the records [put] registers do not carry empty properties. *)
Lemma put_records_not_empty_metadata :
  ~ Forall (fun i => properties i = [])
      (registered (trace (Examples.ex_put (fun _ => true) [Interrupt] None))).
Proof.
  vm_compute. intros H. inversion H as [|x l Hx _]. discriminate Hx.
Qed.

(* ------------------------------------------------------------------ *)
(** * Witnesses: the claims' theorems at concrete inputs *)

(** C3 at tokens of 8 characters split 4 + 4. *)
Lemma combine_split_generate_witness :
  4 <= 8 /\
  Token.combine 8 4 (fst (Token.split 4 (Token.generate 8 (fun i => i))))
    (snd (Token.split 4 (Token.generate 8 (fun i => i))))
  = Some (Token.generate 8 (fun i => i)).
Proof. split; [lia | apply (combine_split_generate 8 4 (fun i => i)); lia]. Defined.

(** C1 for the file [a.txt] requested through its secret path. *)
Lemma do_GET_response_witness :
  Examples.ex_files (join_curdir "a.txt") = Some [Byte.x41; Byte.x42] /\
  let '(evs, _, _) := do_GET Examples.ex_files (make_server "a.txt" "efgh" true) "/efgh" in
  (("/efgh" = ("/" ++ "efgh")%string \/ "/efgh" = ("/" ++ os_path_basename "a.txt")%string) ->
   exists body,
     evs = ([SendResponse 200;
             SendHeader "Content-type" (HStr "application/octet-stream");
             SendHeader "Content-disposition"
               (HStr (disposition (os_path_basename "a.txt")));
             SendHeader "Content-length" (HInt (List.length [Byte.x41; Byte.x42]));
             EndHeaders] ++ body)%list
     /\ Forall body_event body
     /\ written body = [Byte.x41; Byte.x42])
  /\ ("/efgh" <> ("/" ++ "efgh")%string /\ "/efgh" <> ("/" ++ os_path_basename "a.txt")%string ->
      evs = [SendResponse 404; EndHeaders] /\ written evs = []).
Proof.
  split; [reflexivity|].
  apply (do_GET_response Examples.ex_files "a.txt" "efgh" "/efgh" true [Byte.x41; Byte.x42]).
  reflexivity.
Defined.

(** C9 for the file [a.txt] requested through its base name. *)
Lemma do_GET_progress_witness :
  Examples.ex_files (join_curdir "a.txt") = Some [Byte.x41; Byte.x42] /\
  accepted (make_server "a.txt" "efgh" true) "/a.txt" = true /\
  let '(evs, _, _) := do_GET Examples.ex_files (make_server "a.txt" "efgh" true) "/a.txt" in
  exists k,
    hook_calls evs = map (fun i => (i, chunksize, 2)) (seq 0 k)
    /\ 2 <= k * chunksize
    /\ k * chunksize < 2 + chunksize
    /\ ([Byte.x41; Byte.x42] <> [] -> last (progress evs 0) 0 = 2).
Proof.
  split; [reflexivity|]. split; [reflexivity|].
  apply (do_GET_progress Examples.ex_files "a.txt" "efgh" "/a.txt" [Byte.x41; Byte.x42]);
    reflexivity.
Defined.

(** Membership in a computed list of actions. *)
Ltac in_computed := vm_compute; repeat (first [left; reflexivity | right]).

(** C4 for a run whose valid request is served under a timeout of 5 s. *)
Lemma put_timeout_after_teardown_witness :
  In SocketClose (trace (Examples.ex_put (fun _ => true) [Request "/efgh"] (Some 5))) /\
  ((res (Examples.ex_put (fun _ => true) [Request "/efgh"] (Some 5)) = Raised TimeoutException
    <-> (Some 5 <> None
         /\ downloaded_flag (Examples.ex_put (fun _ => true) [Request "/efgh"] (Some 5)) = false))
   /\ (res (Examples.ex_put (fun _ => true) [Request "/efgh"] (Some 5)) <> Raised TimeoutException
       -> res (Examples.ex_put (fun _ => true) [Request "/efgh"] (Some 5)) = Done)).
Proof.
  split; [in_computed|].
  apply (put_timeout_after_teardown (Examples.ex_env (fun _ => true) [Request "/efgh"])
           "a.txt" None None None None true (Some 5)).
  in_computed.
Defined.

(** C7 for the same run. *)
Lemma put_withdraws_all_witness :
  torn_down (trace (Examples.ex_put (fun _ => true) [Request "/efgh"] (Some 5))) /\
  List.length (registered (trace (Examples.ex_put (fun _ => true) [Request "/efgh"] (Some 5)))) = 2
  /\ registry (trace (Examples.ex_put (fun _ => true) [Request "/efgh"] (Some 5))) [] = [].
Proof.
  assert (H : torn_down (trace (Examples.ex_put (fun _ => true) [Request "/efgh"] (Some 5))))
    by (split; in_computed).
  split; [exact H|].
  exact (put_withdraws_all (Examples.ex_env (fun _ => true) [Request "/efgh"])
           "a.txt" None None None None true (Some 5) H).
Defined.

(** C5 (amended) for an interrupt under a timeout of 5 s. *)
Lemma put_interrupt_witness :
  in_range (config_port (Examples.ex_env (fun _ => true) [Interrupt])) = true /\
  Token.prepare_token 8 4 (fun i => i) None = Some ("abcd", "efgh") /\
  (let r := Examples.ex_put (fun _ => true) [Interrupt] (Some 5) in
   torn_down (trace r) /\ downloaded_flag r = false /\ res r = Raised TimeoutException).
Proof.
  split; [reflexivity|]. split; [reflexivity|].
  apply (put_interrupt (Examples.ex_env (fun _ => true) [Interrupt])
           "a.txt" None None None None true (Some 5) "abcd" "efgh" []);
    reflexivity.
Defined.

(** C2 (amended) for a request for ["/bad"] without a timeout. *)
Lemma put_invalid_request_witness :
  "/bad" <> ("/" ++ "efgh")%string /\ "/bad" <> ("/" ++ os_path_basename "a.txt")%string /\
  (let r := Examples.ex_put (fun _ => true) [Request "/bad"; Request "/efgh"] None in
   served (trace r) = [SendResponse 404; EndHeaders]
   /\ torn_down (trace r) /\ downloaded_flag r = false /\ res r = Done).
Proof.
  split; [discriminate|]. split; [discriminate|].
  apply (put_invalid_request (Examples.ex_env (fun _ => true) [Request "/bad"; Request "/efgh"])
           "a.txt" None None None None true None "abcd" "efgh" "/bad" [Request "/efgh"]);
    try reflexivity; discriminate.
Defined.

(** C8 (amended) for the example run. *)
Lemma put_registrations_witness :
  Token.prepare_token 8 4 (fun i => i) None = Some ("abcd", "efgh") /\
  (let r := Examples.ex_put (fun _ => true) [Interrupt] None in
   exists a p,
     registered (trace r)
       = [make_info "abcd" a p; make_info "9b1a4c2d" a p]
     /\ Forall (fun i => type_ i = service_type /\ weight i = 0 /\ priority i = 0
                        /\ properties i = [("path", None)]) (registered (trace r))).
Proof.
  split; [reflexivity|].
  apply (put_registrations (Examples.ex_env (fun _ => true) [Interrupt])
           "a.txt" None None None None true None "abcd" "efgh");
    reflexivity.
Defined.

(** C10 for the configured port 0 and the OS-assigned port 50123. *)
Lemma put_ephemeral_port_witness :
  config_port (Examples.ex_env (fun _ => true) [Interrupt]) = 0%Z /\
  ephemeral_port (Examples.ex_env (fun _ => true) [Interrupt]) <> 0%Z /\
  Forall (fun i => port i = 50123%Z /\ port i <> 0%Z)
    (registered (trace (Examples.ex_put (fun _ => true) [Interrupt] None))).
Proof.
  split; [reflexivity|]. split; [discriminate|].
  apply (put_ephemeral_port (Examples.ex_env (fun _ => true) [Interrupt])
           "a.txt" None None None None true None).
  - right; split; reflexivity.
  - discriminate.
Defined.

(* ================================================================== *)
(** * Further properties of put.py *)

Module MoreFacts.
Import Py Handler Put.
Local Open Scope list_scope.

Lemma send_loop_no_hook (fuel n : nat) :
  forall rest i, hook_calls (send_loop fuel false n rest i) = [].
Proof.
  induction fuel as [|fuel IH]; intros rest i; cbn [send_loop]; [reflexivity|].
  destruct (firstn chunksize rest); [reflexivity|]. cbn [hook_calls app]. apply IH.
Qed.

Lemma served_registers (regs : list action) :
  Forall PutFacts.is_register regs -> served regs = [].
Proof.
  induction 1 as [|a l Ha _ IH]; [reflexivity|].
  destruct a; try contradiction. cbn. exact IH.
Qed.

(** A server whose flag is set by [handle_request] has sent the whole
    file with status 200. *)
Lemma handle_request_downloaded (t : option nat) (f : fs) (fn sec : string) (hook : bool) :
  forall evs out srv' x,
  handle_request t f (make_server fn sec hook) evs = Some (out, srv', x) ->
  downloaded srv' = true ->
  exists contents, f (join_curdir fn) = Some contents
    /\ written out = contents /\ In (SendResponse 200) out.
Proof.
  induction evs as [|[p| |] evs IH]; intros out srv' x; cbn [handle_request];
    try discriminate.
  - unfold do_GET. destruct (accepted _ p).
    + cbn [Handler.filename make_server]. destruct (f (join_curdir fn)) as [c|] eqn:Ef.
      * intros H _. injection H as <- <- _. exists c. split; [reflexivity|].
        split; [|left; reflexivity].
        cbn [written app]. apply HandlerFacts.send_loop_written. lia.
      * intros H; injection H as _ <- _. discriminate.
    + intros H; injection H as _ <- _. discriminate.
  - intros H; injection H as _ <- _. discriminate.
  - destruct t; [intros H; injection H as _ <- _; discriminate | apply IH].
Qed.

Lemma do_GET_no_hook_aux (f : fs) (srv : server) (path : string) :
  reporthook srv = false ->
  let '(evs, _, _) := do_GET f srv path in hook_calls evs = [].
Proof.
  intros Hh. unfold do_GET. destruct (accepted srv path); [|reflexivity].
  destruct (f (join_curdir (filename srv))); [|reflexivity].
  rewrite HandlerFacts.hook_calls_app, Hh, send_loop_no_hook. reflexivity.
Qed.

Lemma handle_request_no_hook (t : option nat) (f : fs) (fn sec : string) :
  forall evs out srv' x,
  handle_request t f (make_server fn sec false) evs = Some (out, srv', x) ->
  hook_calls out = [].
Proof.
  induction evs as [|[p| |] evs IH]; intros out srv' x; cbn [handle_request];
    try discriminate.
  - pose proof (do_GET_no_hook_aux f (make_server fn sec false) p eq_refl) as H.
    destruct (do_GET f (make_server fn sec false) p) as [[o s] y].
    intros E; injection E as <- _ _. exact H.
  - intros E; injection E as <- _ _. reflexivity.
  - destruct t; [intros E; injection E as <- _ _; reflexivity | apply IH].
Qed.

Lemma handle_request_all_elapsed (f : fs) (srv : server) (evs : list incoming) :
  Forall (fun i => i = Elapsed) evs -> handle_request None f srv evs = None.
Proof. induction 1 as [|i l Hi _ IH]; [reflexivity|]. subst i. exact IH. Qed.


Lemma do_GET_accept (f : fs) (srv : server) (path : string) (c : list byte) :
  accepted srv path = true -> f (join_curdir (filename srv)) = Some c ->
  do_GET f srv path
  = ([SendResponse 200;
      SendHeader "Content-type" (HStr "application/octet-stream");
      SendHeader "Content-disposition"
        (HStr (disposition (os_path_basename (filename srv))));
      SendHeader "Content-length" (HInt (List.length c));
      EndHeaders]
     ++ send_loop (List.length c) (reporthook srv) (List.length c) c 0,
     set_downloaded srv, None).
Proof. intros Ha Hf. unfold do_GET. rewrite Ha, Hf. reflexivity. Qed.
End MoreFacts.


(** X2: [put] raises the timeout error only after teardown, only when a
    timeout was configured, and only when the file was not downloaded. *)
Theorem put_timeout_only_configured (e : env) (filename : string)
        (token iface addr : option string) (port_arg : option Z) (hook : bool)
        (timeout : option nat) :
  let r := put e filename token iface addr port_arg hook timeout in
  res r = Raised TimeoutException ->
  timeout <> None /\ downloaded_flag r = false /\ torn_down (trace r).
Proof.
  intros r Hres.
  destruct (PutFacts.put_shape e filename token iface addr port_arg hook timeout)
    as [[Ht Hr] | [(pre & regs & Hp & Hregs & Ht & Hr) | (pre & regs & out & info & Hp & Hregs & Ht & Hr)]];
    fold r in Ht, Hr |- *.
  - rewrite Hres in Hr. destruct Hr; discriminate.
  - rewrite Hres in Hr. destruct Hr; discriminate.
  - rewrite Ht, !app_assoc. rewrite Hres in Hr.
    destruct timeout; [destruct (downloaded_flag r)|]; try discriminate.
    split; [discriminate|]. split; [reflexivity | apply PutFacts.torn_down_tail].
Qed.



(** X5: without a progress hook, [do_GET] never calls one, whatever the
    path and the file. *)
Theorem do_GET_no_hook (f : fs) (srv : server) (path : string) :
  reporthook srv = false ->
  let '(evs, _, _) := do_GET f srv path in hook_calls evs = [].
Proof.
  intros Hh. unfold do_GET. destruct (accepted srv path); [|reflexivity].
  destruct (f (join_curdir (filename srv))); [|reflexivity].
  rewrite HandlerFacts.hook_calls_app, Hh, MoreFacts.send_loop_no_hook. reflexivity.
Qed.

(** X6: when [put] ends with [downloaded] set, the response it served had
    status 200 and its body was exactly the bytes of the shared file. *)
Theorem put_downloaded_served (e : env) (filename : string)
        (token iface addr : option string) (port_arg : option Z) (hook : bool)
        (timeout : option nat) :
  let r := put e filename token iface addr port_arg hook timeout in
  downloaded_flag r = true ->
  exists contents, files e (join_curdir filename) = Some contents
    /\ written (served (trace r)) = contents
    /\ In (SendResponse 200) (served (trace r)).
Proof.
  intros r; subst r. unfold put; cbv zeta.
  destruct (in_range _); cbn [negb]; [|discriminate].
  destruct (Token.prepare_token _ _ _ _) as [[b sec]|]; [|discriminate].
  match goal with |- context [register_all ?ok ?infos] =>
    destruct (register_all ok infos) as [regs [x|]] eqn:Er end;
    [discriminate|].
  pose proof (PutFacts.register_all_registers _ _ _ _ Er) as Hregs.
  match goal with |- context [handle_request ?t ?f ?s ?evs] =>
    destruct (handle_request t f s evs) as [[[out srv'] x]|] eqn:Eh end;
    [|discriminate].
  assert (Hs : forall tl, served ((match token with None => [Announce (b ++ sec)%string]
                                               | Some _ => [] end ++ regs ++ Serve out :: tl)%list)
                          = (out ++ served tl)%list).
  { intros tl. rewrite !PutFacts.served_app, PutFacts.served_pre,
      MoreFacts.served_registers by exact Hregs. reflexivity. }
  destruct x as [[]|]; try destruct timeout; try destruct (downloaded srv') eqn:Ed;
    cbn [trace downloaded_flag negb]; intros Hd; try discriminate;
    rewrite Hs; cbn [served flat_map]; rewrite ?app_nil_r;
    apply (MoreFacts.handle_request_downloaded _ _ _ _ _ _ _ _ _ Eh); assumption.
Qed.

(** X7: when the first thing the server receives is a GET for the secret
    path or the base name and the file is readable, [put] serves exactly
    the file's bytes, tears down, and returns normally with [downloaded]
    set, whether or not a timeout was configured. *)
Theorem put_valid_request_served (e : env) (filename : string)
        (token iface addr : option string) (port_arg : option Z) (hook : bool)
        (timeout : option nat) (b sec path : string) (rest : list incoming)
        (contents : list byte) :
  in_range (match port_arg with Some q => q | None => config_port e end) = true ->
  Token.prepare_token (token_len e) (broadcast_len e) (draw e) token = Some (b, sec) ->
  (forall n, register_ok e n = true) ->
  incoming_events e = Request path :: rest ->
  (path = ("/" ++ sec)%string \/ path = ("/" ++ os_path_basename filename)%string) ->
  files e (join_curdir filename) = Some contents ->
  let r := put e filename token iface addr port_arg hook timeout in
  written (served (trace r)) = contents /\ torn_down (trace r)
  /\ downloaded_flag r = true /\ res r = Done.
Proof.
  intros Hrange Htok Hreg Hin Hp Hf r; subst r. open_put Hrange Htok Hreg.
  rewrite Hin. cbn [handle_request].
  assert (Ha : accepted (make_server filename sec hook) path = true).
  { unfold accepted; cbn [make_server Handler.token Handler.basename].
    destruct Hp as [-> | ->]; rewrite String.eqb_refl; [reflexivity|].
    apply orb_true_r. }
  rewrite (MoreFacts.do_GET_accept _ _ _ contents Ha Hf).
  destruct timeout; cbn [trace downloaded_flag res set_downloaded downloaded negb];
    (split; [rewrite !PutFacts.served_app, PutFacts.served_pre; cbn [served flat_map];
             rewrite ?app_nil_r, HandlerFacts.written_app; cbn [written app];
             apply HandlerFacts.send_loop_written; lia|]);
    rewrite !app_assoc; (split; [apply PutFacts.torn_down_tail | split; reflexivity]).
Qed.

(** X8: without a timeout, a server that only sees its wait elapse keeps
    waiting: [put] does not return and never tears down. *)
Theorem put_blocks_without_timeout (e : env) (filename : string)
        (token iface addr : option string) (port_arg : option Z) (hook : bool)
        (b sec : string) :
  in_range (match port_arg with Some q => q | None => config_port e end) = true ->
  Token.prepare_token (token_len e) (broadcast_len e) (draw e) token = Some (b, sec) ->
  (forall n, register_ok e n = true) ->
  Forall (fun i => i = Elapsed) (incoming_events e) ->
  let r := put e filename token iface addr port_arg hook None in
  res r = Blocked /\ ~ In SocketClose (trace r).
Proof.
  intros Hrange Htok Hreg Hin r; subst r. open_put Hrange Htok Hreg.
  rewrite MoreFacts.handle_request_all_elapsed by exact Hin.
  cbn [trace res]. split; [reflexivity|].
  exact (proj1 (PutFacts.no_close_before_wait _ _ (PutFacts.announce_pre_match _ _)
                  (PutFacts.map_register_registers _))).
Qed.




Import Cli.


(** X13: with [-q], [cli] passes no progress hook to [put], so serving
    the file calls none. *)
Theorem cli_quiet_no_hook (e : env) (isfile : string -> bool) (a : cli_args) (r : result) :
  fst (cli e isfile a) = Some r -> a_quiet a <> 0 ->
  hook_calls (served (trace r)) = [].
Proof.
  intros Hr Hq. unfold cli in Hr.
  destruct (negb (isfile (a_input a))); [discriminate|].
  destruct (truthy (a_interface a) && truthy (a_address a)); [discriminate|].
  cbn [fst] in Hr. injection Hr as <-.
  rewrite (proj2 (Nat.eqb_neq _ _) Hq).
  unfold put; cbv zeta.
  destruct (in_range _); cbn [negb]; [|reflexivity].
  destruct (Token.prepare_token _ _ _ _) as [[b sec]|]; [|reflexivity].
  match goal with |- context [register_all ?ok ?infos] =>
    destruct (register_all ok infos) as [regs [x|]] eqn:Er end;
    pose proof (PutFacts.register_all_registers _ _ _ _ Er) as Hregs.
  - cbn [trace]. rewrite PutFacts.served_app, PutFacts.served_pre,
      MoreFacts.served_registers by exact Hregs. reflexivity.
  - match goal with |- context [handle_request ?t ?f ?s ?evs] =>
      destruct (handle_request t f s evs) as [[[out srv'] y]|] eqn:Eh end.
    + pose proof (MoreFacts.handle_request_no_hook _ _ _ _ _ _ _ _ Eh) as Hn.
      destruct y as [[]|]; try destruct (a_timeout a); try destruct (downloaded srv');
        cbn [trace negb];
        rewrite !PutFacts.served_app, PutFacts.served_pre,
          MoreFacts.served_registers by exact Hregs;
        cbn [served flat_map]; rewrite ?app_nil_r; exact Hn.
    + cbn [trace]. rewrite PutFacts.served_app, PutFacts.served_pre,
        MoreFacts.served_registers by exact Hregs. reflexivity.
Qed.

(** X14: when [cli] shares a file with a timeout and the wait elapses
    before any request, it ends on [TimeoutException]: re-raised in
    verbose mode, exit status 1 otherwise, after [put] has torn down. *)
Theorem cli_timeout (e : env) (isfile : string -> bool) (a : cli_args)
        (n : nat) (b sec : string) (rest : list incoming) :
  isfile (a_input a) = true ->
  truthy (a_interface a) && truthy (a_address a) = false ->
  in_range (match a_port a with Some q => q | None => config_port e end) = true ->
  Token.prepare_token (token_len e) (broadcast_len e) (draw e) (a_token a) = Some (b, sec) ->
  (forall nm, register_ok e nm = true) ->
  a_timeout a = Some n ->
  incoming_events e = Elapsed :: rest ->
  (exists r, fst (cli e isfile a) = Some r /\ torn_down (trace r))
  /\ snd (cli e isfile a)
     = if Nat.ltb 0 (a_verbose a) then CliReraise TimeoutException
       else CliExit 1 TimeoutException.
Proof.
  intros Hf Hia Hrange Htok Hreg Ht Hin. unfold cli. rewrite Hf, Hia. cbn [negb fst snd].
  rewrite Ht. open_put Hrange Htok Hreg. rewrite Hin. cbn [handle_request make_server
    downloaded negb trace res].
  split; [eexists; split; [reflexivity|] | reflexivity].
  rewrite !app_assoc. apply PutFacts.torn_down_tail.
Qed.

(* ------------------------------------------------------------------ *)
(** * Witnesses of the further properties *)


Lemma put_timeout_only_configured_witness :
  res (Examples.ex_put (fun _ => true) [Elapsed] (Some 5)) = Raised TimeoutException /\
  Some 5 <> None /\ downloaded_flag (Examples.ex_put (fun _ => true) [Elapsed] (Some 5)) = false
  /\ torn_down (trace (Examples.ex_put (fun _ => true) [Elapsed] (Some 5))).
Proof.
  split; [vm_compute; reflexivity|].
  apply (put_timeout_only_configured (Examples.ex_env (fun _ => true) [Elapsed])
           "a.txt" None None None None true (Some 5)).
  vm_compute; reflexivity.
Defined.



Lemma do_GET_no_hook_witness :
  reporthook (make_server "a.txt" "efgh" false) = false /\
  let '(evs, _, _) := do_GET Examples.ex_files (make_server "a.txt" "efgh" false) "/efgh" in
  hook_calls evs = [].
Proof.
  split; [reflexivity|].
  apply (do_GET_no_hook Examples.ex_files (make_server "a.txt" "efgh" false) "/efgh").
  reflexivity.
Defined.

Lemma put_downloaded_served_witness :
  downloaded_flag (Examples.ex_put (fun _ => true) [Request "/efgh"] None) = true /\
  exists contents, Examples.ex_files (join_curdir "a.txt") = Some contents
    /\ written (served (trace (Examples.ex_put (fun _ => true) [Request "/efgh"] None))) = contents
    /\ In (SendResponse 200) (served (trace (Examples.ex_put (fun _ => true) [Request "/efgh"] None))).
Proof.
  split; [vm_compute; reflexivity|].
  apply (put_downloaded_served (Examples.ex_env (fun _ => true) [Request "/efgh"])
           "a.txt" None None None None true None).
  vm_compute; reflexivity.
Defined.

Lemma put_valid_request_served_witness :
  Token.prepare_token 8 4 (fun i => i) None = Some ("abcd", "efgh") /\
  (let r := Examples.ex_put (fun _ => true) [Request "/a.txt"] (Some 5) in
   written (served (trace r)) = [Byte.x41; Byte.x42] /\ torn_down (trace r)
   /\ downloaded_flag r = true /\ res r = Done).
Proof.
  split; [reflexivity|].
  apply (put_valid_request_served (Examples.ex_env (fun _ => true) [Request "/a.txt"])
           "a.txt" None None None None true (Some 5) "abcd" "efgh" "/a.txt" []);
    try reflexivity.
  right; reflexivity.
Defined.

Lemma put_blocks_without_timeout_witness :
  Forall (fun i => i = Elapsed) [Elapsed; Elapsed] /\
  (let r := Examples.ex_put (fun _ => true) [Elapsed; Elapsed] None in
   res r = Blocked /\ ~ In SocketClose (trace r)).
Proof.
  split; [repeat constructor|].
  apply (put_blocks_without_timeout (Examples.ex_env (fun _ => true) [Elapsed; Elapsed])
           "a.txt" None None None None true "abcd" "efgh"); try reflexivity.
  repeat constructor.
Defined.



Lemma cli_quiet_no_hook_witness :
  fst (cli (Examples.ex_env (fun _ => true) [Request "/efgh"]) (fun _ => true)
         (Examples.ex_args 1 None))
  = Some (put (Examples.ex_env (fun _ => true) [Request "/efgh"]) "a.txt" None None None None false None) /\
  a_quiet (Examples.ex_args 1 None) <> 0 /\
  hook_calls (served (trace (put (Examples.ex_env (fun _ => true) [Request "/efgh"]) "a.txt" None None None None false None))) = [].
Proof.
  assert (H : fst (cli (Examples.ex_env (fun _ => true) [Request "/efgh"]) (fun _ => true)
                     (Examples.ex_args 1 None))
              = Some (put (Examples.ex_env (fun _ => true) [Request "/efgh"]) "a.txt" None None None None false None))
    by reflexivity.
  split; [exact H|]. split; [discriminate|].
  exact (cli_quiet_no_hook _ _ _ _ H ltac:(discriminate)).
Defined.

Lemma cli_timeout_witness :
  incoming_events (Examples.ex_env (fun _ => true) [Elapsed]) = [Elapsed] /\
  (exists r, fst (cli (Examples.ex_env (fun _ => true) [Elapsed]) (fun _ => true)
                    (Examples.ex_args 0 (Some 5))) = Some r /\ torn_down (trace r))
  /\ snd (cli (Examples.ex_env (fun _ => true) [Elapsed]) (fun _ => true)
            (Examples.ex_args 0 (Some 5))) = CliExit 1 TimeoutException.
Proof.
  split; [reflexivity|].
  apply (cli_timeout (Examples.ex_env (fun _ => true) [Elapsed]) (fun _ => true)
           (Examples.ex_args 0 (Some 5)) 5 "abcd" "efgh" []); try reflexivity.
Defined.
